(** * NGO verification backend (backend/main.py): OTP lifecycle and handlers

    A shallow embedding of the FastAPI service in [backend/main.py]: the OTP
    store kept in a JSON file, the four request handlers, and the external
    collaborators they call (reference dataset, identity provider, mail
    relay, clock, random source).

    Conventions of the embedding.
    - A Python [str] is a [string]; a character stands for the code point
      of the same number (Latin-1 range).
    - A Python [int] is a [Z].
    - A POSIX timestamp ([datetime.now().timestamp()], a float carrying
      microseconds) is the number of microseconds since the epoch, a [Z]:
      the handlers only add a [timedelta] to it and compare it, and the
      conversion to seconds is strictly increasing on such values.
    - A [dict] with string keys is a [gmap string _].
    - A handler is a computation over the [World] that either returns a
      value or raises an exception; the world changes made before a raise
      are kept, as in Python.
    - [print] calls only write to the log and are left out, and so are
      the two read-only endpoints [GET /check-otp-status] and [GET /]. *)

From stdpp Require Import gmap strings list fin_maps pretty.
From Stdlib Require Import ZArith Ascii.

Open Scope Z_scope.

(** ** Python built-ins used by the service *)

Module Py.

Definition code_point (c : ascii) : Z := Z.of_nat (nat_of_ascii c).

(** [str.isspace] on one character, as [str.strip()] uses it:
    TAB..CR, FS..US, SPACE, NEL and NBSP. *)
Definition isspace (c : ascii) : bool :=
  let n := code_point c in
  ((9 <=? n) && (n <=? 13)) || ((28 <=? n) && (n <=? 32))
  || (n =? 133) || (n =? 160).

Fixpoint lstrip_with (sp : ascii → bool) (s : string) : string :=
  match s with
  | EmptyString => EmptyString
  | String c s' => if sp c then lstrip_with sp s' else s
  end.

Fixpoint rstrip_with (sp : ascii → bool) (s : string) : string :=
  match s with
  | EmptyString => EmptyString
  | String c s' =>
      match rstrip_with sp s' with
      | EmptyString => if sp c then EmptyString else String c EmptyString
      | r => String c r
      end
  end.

(** [s.strip()] *)
Definition strip (s : string) : string :=
  rstrip_with isspace (lstrip_with isspace s).

(** [str.lower] on one character: A..Z and the accented capitals
    (all of 192..222 but the multiplication sign 215) move up by 32. *)
Definition lower_char (c : ascii) : ascii :=
  let n := code_point c in
  if ((65 <=? n) && (n <=? 90))
     || ((192 <=? n) && (n <=? 222) && negb (n =? 215))
  then ascii_of_nat (nat_of_ascii c + 32)
  else c.

(** [s.lower()] *)
Fixpoint lower (s : string) : string :=
  match s with
  | EmptyString => EmptyString
  | String c s' => String (lower_char c) (lower s')
  end.

(** The blanks [int(str)] skips around the literal: the C blanks, and
    NEL and NBSP, which the conversion first rewrites to a space. The
    separators FS..US are blanks for [strip] but not for [int]. *)
Definition int_blank (c : ascii) : bool :=
  let n := code_point c in
  ((9 <=? n) && (n <=? 13)) || (n =? 32) || (n =? 133) || (n =? 160).

Definition digit_value (c : ascii) : option Z :=
  let n := code_point c in
  if (48 <=? n) && (n <=? 57) then Some (n - 48) else None.

(** What the scanner of a decimal literal saw last. *)
Inductive seen := AtStart | AfterDigit | AfterUnderscore.

(** Digits with single underscores between them, up to the end of the
    string: the value and the number of digits read. *)
Fixpoint scan_digits (prev : seen) (acc : Z) (count : nat) (s : string)
  : option (Z * nat) :=
  match s with
  | EmptyString =>
      match prev with AfterDigit => Some (acc, count) | _ => None end
  | String c s' =>
      match digit_value c with
      | Some d => scan_digits AfterDigit (10 * acc + d) (S count) s'
      | None =>
          if Ascii.eqb c "_"%char then
            match prev with
            | AfterDigit => scan_digits AfterUnderscore acc count s'
            | _ => None
            end
          else None
      end
  end.

(** [int(s)] for a [str] argument: [Some n] when it returns [n], [None]
    when it raises [ValueError]. [max_str_digits] is the interpreter's
    [sys.get_int_max_str_digits()]: 0 switches the limit off, otherwise
    a literal with more digits is refused. *)
Definition int (max_str_digits : nat) (s : string) : option Z :=
  let t := rstrip_with int_blank (lstrip_with int_blank s) in
  let '(negative, body) :=
    match t with
    | String "-" b => (true, b)
    | String "+" b => (false, b)
    | _ => (false, t)
    end in
  match scan_digits AtStart 0 0%nat body with
  | Some (v, count) =>
      if (0 <? max_str_digits)%nat && (max_str_digits <? count)%nat
      then None
      else Some (if negative then - v else v)
  | None => None
  end.

(** [x or default] for a value that may be [None] or an empty string. *)
Definition or_else (x : option string) (default : string) : string :=
  match x with
  | Some (String c s) => String c s
  | _ => default
  end.

End Py.

(** ** Exceptions *)

(** The exceptions the service raises or receives. Every one of them is a
    subclass of Python's [Exception]. [OtherException] stands for any
    exception class the service does not name (network errors of the
    identity provider, [KeyError], ...). *)
Inductive exn : Type :=
| HTTPException (status_code : Z) (detail : string)
| UserNotFoundError
| EmailAlreadyExistsError
| ValueError
| OtherException (name : string).

#[export] Instance exn_eq_dec : EqDecision exn.
Proof. solve_decision. Defined.

(** [isinstance(e, HTTPException)] *)
Definition is_HTTPException (e : exn) : bool :=
  match e with HTTPException _ _ => true | _ => false end.

(** ** Data model *)

(** One value of the OTP mapping: [{"otp": int, "expires_at": timestamp}]. *)
Record OtpRecord : Type := { otp : Z; expires_at : Z }.

Abbreviation OtpStore := (gmap string OtpRecord).

(** A row of the reference table [ngo.csv]; both cells hold text. *)
Record NgoRow : Type := { Ngo_Name : string; Email : string }.

Module NGOVerification.
Record t : Type := { ngo_name : string; ngo_email : string }.
End NGOVerification.

Module OTPVerification.
Record t : Type := { ngo_email : string; otp : string }.
End OTPVerification.

Module LoginModel.
Record t : Type := { email : string; password : string }.
End LoginModel.

Module SignupModel.
Record t : Type := { ngo_email : string; password : string }.
End SignupModel.

(** What the identity provider returns for an account. *)
Module UserRecord.
Record t : Type :=
  { uid : string; display_name : option string; email : string }.
End UserRecord.

(** A JSON object whose values are all strings, in key order. *)
Definition response : Type := list (string * string).

(** A message handed to the mail relay. *)
Record Mail : Type :=
  { recipient : string; subject : string; body : string }.

(** ** The world the handlers run in *)

(** A source of external readings, consumed one at a time. *)
Record tape (A : Type) : Type := Tape { cells : nat → A; pos : nat }.
Arguments Tape {A} _ _.
Arguments cells {A} _ _.
Arguments pos {A} _.

Definition read {A} (t : tape A) : A * tape A :=
  (cells t (pos t), Tape (cells t) (S (pos t))).

(** The file [otp_storage.json]: missing, holding a mapping, or present
    but not loadable (unreadable, or not JSON). *)
Inductive file_state : Type :=
| Absent
| Json (content : OtpStore)
| Unreadable.

(** The identity provider ([firebase_admin.auth]) as an interface over its
    own state [S]: each call answers with a value or an exception and
    leaves the provider in a new state. *)
Class Auth (S : Type) : Type :=
  { get_user_by_email : string → S → (exn + UserRecord.t) * S;
    create_user : string → string → string → S → (exn + UserRecord.t) * S }.

Record World (S : Type) : Type :=
  { otp_file : file_state;       (* OTP_FILE on disk *)
    disk_writable : bool;        (* whether OTP_FILE can be opened for writing *)
    clock : tape Z;              (* successive readings of datetime.now() *)
    randomness : tape Z;         (* successive draws of the random module *)
    smtp : tape bool;            (* whether each delivery attempt gets through *)
    outbox : list Mail;          (* messages the relay accepted, newest first *)
    auth_state : S }.
Arguments otp_file {S} _.
Arguments disk_writable {S} _.
Arguments clock {S} _.
Arguments randomness {S} _.
Arguments smtp {S} _.
Arguments outbox {S} _.
Arguments auth_state {S} _.

Definition set_otp_file {S} (f : file_state) (w : World S) : World S :=
  {| otp_file := f; disk_writable := disk_writable w; clock := clock w;
     randomness := randomness w; smtp := smtp w; outbox := outbox w;
     auth_state := auth_state w |}.

Definition set_clock {S} (c : tape Z) (w : World S) : World S :=
  {| otp_file := otp_file w; disk_writable := disk_writable w; clock := c;
     randomness := randomness w; smtp := smtp w; outbox := outbox w;
     auth_state := auth_state w |}.

Definition set_randomness {S} (r : tape Z) (w : World S) : World S :=
  {| otp_file := otp_file w; disk_writable := disk_writable w;
     clock := clock w; randomness := r; smtp := smtp w; outbox := outbox w;
     auth_state := auth_state w |}.

Definition set_mail {S} (t : tape bool) (o : list Mail) (w : World S)
  : World S :=
  {| otp_file := otp_file w; disk_writable := disk_writable w;
     clock := clock w; randomness := randomness w; smtp := t; outbox := o;
     auth_state := auth_state w |}.

Definition set_auth_state {S} (s : S) (w : World S) : World S :=
  {| otp_file := otp_file w; disk_writable := disk_writable w;
     clock := clock w; randomness := randomness w; smtp := smtp w;
     outbox := outbox w; auth_state := s |}.

(** ** Computations that may raise *)

(** A computation over the world: its outcome ([inl e] when it raises [e],
    [inr v] when it returns [v]) and the world it leaves. *)
Definition M (S A : Type) : Type := World S → (exn + A) * World S.

Definition ret {S A} (v : A) : M S A := λ w, (inr v, w).

Definition raise {S A} (e : exn) : M S A := λ w, (inl e, w).

Definition bind {S A B} (m : M S A) (k : A → M S B) : M S B :=
  λ w, match m w with
       | (inr v, w') => k v w'
       | (inl e, w') => (inl e, w')
       end.

(** [try: body except ...: ...]. The clauses are given as one function:
    [Some h] runs the handler of the first clause that matches the
    exception, [None] lets it propagate. *)
Definition try_except {S A} (body : M S A) (clauses : exn → option (M S A))
  : M S A :=
  λ w, match body w with
       | (inr v, w') => (inr v, w')
       | (inl e, w') =>
           match clauses e with
           | Some h => h w'
           | None => (inl e, w')
           end
       end.

(** [if cond: stmt] in a sequence of statements. *)
Definition when {S} (cond : bool) (stmt : M S unit) : M S unit :=
  if cond then stmt else ret tt.

Declare Scope py_scope.
Delimit Scope py_scope with py.
Notation "x <- c1 ;; c2" := (bind c1 (λ x, c2))
  (at level 100, c1 at next level, right associativity) : py_scope.
Notation "c1 ;; c2" := (bind c1 (λ _, c2))
  (at level 100, right associativity) : py_scope.
Open Scope py_scope.

(** [d[k]] on a dict: [KeyError] when the key is missing. *)
Definition getitem {S A} (d : gmap string A) (k : string) : M S A :=
  match d !! k with
  | Some v => ret v
  | None => raise (OtherException "KeyError")
  end.

(** [k in d] *)
Definition contains {A} (d : gmap string A) (k : string) : bool :=
  bool_decide (is_Some (d !! k)).

(** ** The service *)

Section Service.

(** The identity provider behind [auth]. *)
Context {S : Type} `{!Auth S}.

(** [df]: the table read from [CSV_FILE] when the module is loaded. *)
Variable df : list NgoRow.

(** [str(e)] for an exception [e]; the text depends on the libraries that
    define the exception classes. *)
Variable exn_str : exn → string.

(** The interpreter's limit on the digits of an [int] literal. *)
Variable max_str_digits : nat.

Definition OTP_EXPIRY_MINUTES : Z := 10.

(** [timedelta(minutes=m)], in microseconds. *)
Definition timedelta_minutes (m : Z) : Z := m * 60 * 1000000.

(** [datetime.now()] *)
Definition datetime_now : M S Z :=
  λ w, let '(t, c) := read (clock w) in (inr t, set_clock c w).

(** [random.randint(a, b)]: some integer of [a..b], chosen by the draw. *)
Definition random_randint (a b : Z) : M S Z :=
  λ w, let '(r, t) := read (randomness w) in
       (inr (a + r mod (b - a + 1)), set_randomness t w).

(** [int(s)] *)
Definition int (s : string) : M S Z :=
  match Py.int max_str_digits s with
  | Some n => ret n
  | None => raise ValueError
  end.

Definition auth_get_user_by_email (email : string) : M S UserRecord.t :=
  λ w, let '(r, s) := get_user_by_email email (auth_state w) in
       (r, set_auth_state s w).

Definition auth_create_user (email password display_name : string)
  : M S UserRecord.t :=
  λ w, let '(r, s) := create_user email password display_name (auth_state w) in
       (r, set_auth_state s w).

(** *** Helper functions for OTP storage *)

(** Load OTP store from file: the empty mapping when the file is missing,
    and also when reading it raises (the exception is swallowed). *)
Definition load_otp_store : M S OtpStore :=
  λ w, match otp_file w with
       | Absent => (inr ∅, w)
       | Json content => (inr content, w)
       | Unreadable => (inr ∅, w)
       end.

(** Save OTP store to file: [True] after replacing the file's content,
    [False] (file untouched) when the file cannot be opened for writing. *)
Definition save_otp_store (otp_store : OtpStore) : M S bool :=
  λ w, if disk_writable w
       then (inr true, set_otp_file (Json otp_store) w)
       else (inr false, w).

(** Remove expired OTPs from store *)
Definition clean_expired_otps : M S OtpStore :=
  otp_store <- load_otp_store ;;
  current_time <- datetime_now ;;
  let clean_store :=
    filter (λ item : string * OtpRecord, current_time < expires_at item.2)
           otp_store in
  save_otp_store clean_store ;;
  ret clean_store.

(** *** Email sending function *)

(** [True] when the relay took the message, [False] when any step of the
    SMTP session raised. *)
Definition send_email (recipient subject body : string) : M S bool :=
  λ w, let '(delivered, t) := read (smtp w) in
       if delivered
       then (inr true,
             set_mail t ({| recipient := recipient; subject := subject;
                            body := body |} :: outbox w) w)
       else (inr false, set_mail t (outbox w) w).

(** *** POST /verify-ngo *)

Definition verify_ngo (data : NGOVerification.t) : M S response :=
  (* Check if NGO exists in the CSV *)
  let matched_row :=
    List.filter
      (λ row,
         String.eqb (Py.lower (Py.strip (Ngo_Name row)))
                    (Py.lower (Py.strip (NGOVerification.ngo_name data)))
         && String.eqb (Py.lower (Py.strip (Email row)))
                       (Py.lower (Py.strip (NGOVerification.ngo_email data))))
      df in
  when (bool_decide (matched_row = []))
       (raise (HTTPException 401 "Invalid NGO details")) ;;
  (* Check if already registered in Firebase *)
  try_except
    (user <- auth_get_user_by_email (NGOVerification.ngo_email data) ;;
     raise (HTTPException 400 "NGO already registered. Please login."))
    (λ e, match e with
          | UserNotFoundError => Some (ret tt)
          | _ => None
          end) ;;
  (* Clean expired OTPs first *)
  clean_expired_otps ;;
  (* Generate OTP *)
  otp <- random_randint 100000 999999 ;;
  (* Load current OTP store, add new OTP with expiry time, and save *)
  otp_store <- load_otp_store ;;
  now <- datetime_now ;;
  let expires_at := now + timedelta_minutes OTP_EXPIRY_MINUTES in
  let otp_store :=
    <[NGOVerification.ngo_email data :=
        {| otp := otp; expires_at := expires_at |}]> otp_store in
  save_otp_store otp_store ;;
  (* Send OTP via email *)
  let email_subject := "NGO Registration OTP" in
  let email_body :=
    "Your OTP for NGO registration is " +:+ pretty otp
    +:+ ". This code will expire in " +:+ pretty OTP_EXPIRY_MINUTES
    +:+ " minutes." in
  sent <- send_email (NGOVerification.ngo_email data) email_subject email_body ;;
  if sent
  then ret [("message", "OTP sent successfully")]
  else raise (HTTPException 500 "Failed to send OTP").

(** *** POST /verify-otp *)

Definition verify_otp (data : OTPVerification.t) : M S response :=
  (* Clean expired OTPs first *)
  otp_store <- clean_expired_otps ;;
  when (negb (contains otp_store (OTPVerification.ngo_email data)))
       (raise (HTTPException 400 "No OTP request found or OTP expired")) ;;
  stored_otp_data <- getitem otp_store (OTPVerification.ngo_email data) ;;
  (* Check if OTP is expired *)
  now <- datetime_now ;;
  when (expires_at stored_otp_data <? now)
       ((* Remove expired OTP *)
        let otp_store := delete (OTPVerification.ngo_email data) otp_store in
        save_otp_store otp_store ;;
        raise (HTTPException 400 "OTP expired. Please request a new one.")) ;;
  (* Check if OTP matches *)
  submitted <- int (OTPVerification.otp data) ;;
  when (negb (otp stored_otp_data =? submitted))
       (raise (HTTPException 400 "Invalid OTP")) ;;
  (* Remove OTP after successful verification *)
  let otp_store := delete (OTPVerification.ngo_email data) otp_store in
  save_otp_store otp_store ;;
  ret [("message", "OTP verified successfully")].

(** *** POST /complete-signup *)

Definition complete_signup (data : SignupModel.t) : M S response :=
  try_except
    ((* Find NGO data from CSV *)
     let ngo_data :=
       List.filter
         (λ row,
            String.eqb (Py.lower (Py.strip (Email row)))
                       (Py.lower (Py.strip (SignupModel.ngo_email data))))
         df in
     match ngo_data with
     | [] => raise (HTTPException 404 "NGO not found in database")
     | first :: _ =>
         let ngo_name := Ngo_Name first in
         (* Create user in Firebase Authentication *)
         user <- auth_create_user (SignupModel.ngo_email data)
                                  (SignupModel.password data) ngo_name ;;
         ret [("message", "NGO registered successfully");
              ("uid", UserRecord.uid user); ("ngo_name", ngo_name)]
     end)
    (λ e, match e with
          | EmailAlreadyExistsError =>
              Some (raise (HTTPException 400 "Email already registered"))
          | _ =>
              Some (raise (HTTPException 500
                             ("Registration failed: " +:+ exn_str e)))
          end).

(** *** POST /login *)

Definition login (data : LoginModel.t) : M S response :=
  try_except
    ((* Check if user exists *)
     user <- try_except
               (auth_get_user_by_email (LoginModel.email data))
               (λ e, match e with
                     | UserNotFoundError =>
                         Some (raise (HTTPException 401
                                        "Invalid email or password"))
                     | _ => None
                     end) ;;
     ret [("message", "Login successful");
          ("uid", UserRecord.uid user);
          ("ngo_name", Py.or_else (UserRecord.display_name user) "NGO User");
          ("email", UserRecord.email user)])
    (λ e, Some (if is_HTTPException e
                then raise e
                else raise (HTTPException 500
                              ("Login failed: " +:+ exn_str e)))).

End Service.

(** ** Vocabulary for the statements *)

(** The spec's names for the error responses of the handlers. *)
Definition NotFound : exn := HTTPException 401 "Invalid NGO details".
Definition AlreadyRegistered : exn :=
  HTTPException 400 "NGO already registered. Please login.".
Definition NotificationFailure : exn := HTTPException 500 "Failed to send OTP".
Definition NoPendingOtp : exn :=
  HTTPException 400 "No OTP request found or OTP expired".
Definition Expired : exn :=
  HTTPException 400 "OTP expired. Please request a new one.".
Definition Mismatch : exn := HTTPException 400 "Invalid OTP".
Definition SignupNotFound : exn :=
  HTTPException 404 "NGO not found in database".
Definition InvalidCredentials : exn :=
  HTTPException 401 "Invalid email or password".

Definition otp_verified : response :=
  [("message", "OTP verified successfully")].

Definition otp_sent : response := [("message", "OTP sent successfully")].

(** The profile [login] answers with for an account. *)
Definition login_successful (user : UserRecord.t) : response :=
  [("message", "Login successful");
   ("uid", UserRecord.uid user);
   ("ngo_name", Py.or_else (UserRecord.display_name user) "NGO User");
   ("email", UserRecord.email user)].

(** The mapping the store holds in world [w]: what a load gives there. *)
Definition stored {S} (w : World S) : OtpStore :=
  match otp_file w with Json content => content | _ => ∅ end.

(** The next reading of the clock in [w], and [w] after that reading. *)
Definition time {S} (w : World S) : Z := cells (clock w) (pos (clock w)).

Definition tick {S} (w : World S) : World S :=
  set_clock (Tape (cells (clock w)) (Datatypes.S (pos (clock w)))) w.

(** The outcome of the next delivery attempt and the next random draw. *)
Definition relay_up {S} (w : World S) : bool := cells (smtp w) (pos (smtp w)).

Definition draw {S} (w : World S) : Z :=
  cells (randomness w) (pos (randomness w)).

(** The records of [m] whose expiry lies after [now]. *)
Definition unexpired (now : Z) (m : OtpStore) : OtpStore :=
  filter (λ item : string * OtpRecord, now < expires_at item.2) m.

(** [w] after an attempt to save [m]. *)
Definition persisted {S} (m : OtpStore) (w : World S) : World S :=
  if disk_writable w then set_otp_file (Json m) w else w.

(** The rows of the table that match a name and an email jointly, and an
    email alone, after trimming and case-folding. *)
Definition joint_matches (df : list NgoRow) (name email : string)
  : list NgoRow :=
  List.filter
    (λ row,
       String.eqb (Py.lower (Py.strip (Ngo_Name row)))
                  (Py.lower (Py.strip name))
       && String.eqb (Py.lower (Py.strip (Email row)))
                     (Py.lower (Py.strip email)))
    df.

Definition email_matches (df : list NgoRow) (email : string) : list NgoRow :=
  List.filter
    (λ row, String.eqb (Py.lower (Py.strip (Email row)))
                       (Py.lower (Py.strip email)))
    df.

(** ** Fixtures: a small table, an in-memory provider, sample worlds *)

Definition sample_df : list NgoRow :=
  [ {| Ngo_Name := "Helping Hands"; Email := "ops@helpinghands.org" |} ].

(** An in-memory identity provider: accounts by email. *)
#[export] Instance MemoryAuth : Auth (gmap string UserRecord.t) :=
  {| get_user_by_email email accounts :=
       (match accounts !! email with
        | Some user => inr user
        | None => inl UserNotFoundError
        end, accounts);
     create_user email password display_name accounts :=
       match accounts !! email with
       | Some _ => (inl EmailAlreadyExistsError, accounts)
       | None =>
           let user := {| UserRecord.uid := "uid-" +:+ email;
                          UserRecord.display_name := Some display_name;
                          UserRecord.email := email |} in
           (inr user, <[email := user]> accounts)
       end |}.

(** A world with the given store file, clock readings [t1] then [t2]
    (then [t2] for ever), random draw [r], relay up or down, and accounts. *)
Definition sample_world (file : file_state) (writable : bool) (t1 t2 r : Z)
  (relay_up : bool) (accounts : gmap string UserRecord.t)
  : World (gmap string UserRecord.t) :=
  {| otp_file := file; disk_writable := writable;
     clock := Tape (λ n, match n with O => t1 | _ => t2 end) 0;
     randomness := Tape (λ _, r) 0;
     smtp := Tape (λ _, relay_up) 0;
     outbox := [];
     auth_state := accounts |}.

Definition ops : string := "ops@helpinghands.org".

Definition hh_account : UserRecord.t :=
  {| UserRecord.uid := "u1"; UserRecord.display_name := Some "Helping Hands";
     UserRecord.email := ops |}.

(** A store with one record for [ops] (code 123456, expiring at 1000) and
    one for another contact (expiring at 50). *)
Definition two_records : OtpStore :=
  <[ops := {| otp := 123456; expires_at := 1000 |}]>
    {[ "old@example.org" := {| otp := 654321; expires_at := 50 |} ]}.

(** The record of [ops] in [two_records]. *)
Definition ops_record : OtpRecord := {| otp := 123456; expires_at := 1000 |}.

(** A world at time 100 (then 101) holding [two_records], relay up, no
    accounts; and the same world with the relay down. *)
Definition pending_world : World (gmap string UserRecord.t) :=
  sample_world (Json two_records) true 100 101 42 true ∅.

Definition relay_down_world : World (gmap string UserRecord.t) :=
  sample_world (Json two_records) true 100 101 42 false ∅.

(** A world in which [ops] already has an account. *)
Definition registered_world : World (gmap string UserRecord.t) :=
  sample_world (Json two_records) true 100 101 42 true {[ops := hh_account]}.

Definition submit (code : string) : OTPVerification.t :=
  {| OTPVerification.ngo_email := ops; OTPVerification.otp := code |}.

Definition helping_hands : NGOVerification.t :=
  {| NGOVerification.ngo_name := " helping hands";
     NGOVerification.ngo_email := ops |}.

(** ** The debug endpoint *)

(** One value of the listing: the code, and the expiry as text. *)
Module ReadableOtp.
Record t : Type := { otp : Z; expires_at : string }.
End ReadableOtp.

(** The body of the listing: [{"otp_count": ..., "otps": {...}}]. *)
Record OtpStatus : Type :=
  { otp_count : nat; otps : gmap string ReadableOtp.t }.

Section Debug.

Context {S : Type}.

(** [os.getenv("ENVIRONMENT")]: [None] when the variable is not set. *)
Variable environment : option string.

(** [datetime.fromtimestamp(t).strftime("%Y-%m-%d %H:%M:%S")]: the text of
    a timestamp in the host's time zone, or the exception the conversion
    raises for a timestamp the platform cannot represent. *)
Variable strftime : Z → exn + string.

(** One record as the listing shows it, when its expiry converts to text
    (the text is empty otherwise, a case the listing never shows). *)
Definition readable_record (data : OtpRecord) : ReadableOtp.t :=
  {| ReadableOtp.otp := otp data;
     ReadableOtp.expires_at :=
       match strftime (expires_at data) with
       | inr text => text
       | inl _ => ""
       end |}.

(** The dict comprehension over [otp_store.items()]: the first conversion
    that raises ends it. The items are visited in key order here; Python
    visits them in the order of the file, which only decides which
    exception is seen when several records cannot be converted. *)
Fixpoint readable_items (items : list (string * OtpRecord))
  : exn + list (string * ReadableOtp.t) :=
  match items with
  | [] => inr []
  | (email, data) :: rest =>
      match strftime (expires_at data) with
      | inl e => inl e
      | inr text =>
          match readable_items rest with
          | inl e => inl e
          | inr converted =>
              inr ((email, {| ReadableOtp.otp := otp data;
                              ReadableOtp.expires_at := text |})
                     :: converted)
          end
      end
  end.

(** *** GET /check-otp-status *)

Definition check_otp_status : M S OtpStatus :=
  (* Only enable this in development environment *)
  when (negb (bool_decide (environment = Some "development")))
       (raise (HTTPException 403 "Not allowed in production")) ;;
  otp_store <- load_otp_store ;;
  (* Convert timestamps to readable format for display *)
  match readable_items (map_to_list otp_store) with
  | inl e => raise e
  | inr readable_store =>
      ret {| otp_count := size otp_store;
             otps := list_to_map readable_store |}
  end.

End Debug.

(** ** More vocabulary *)

(** The message [verify_ngo] hands to the relay for a code. *)
Definition otp_mail (email : string) (code : Z) : Mail :=
  {| recipient := email;
     subject := "NGO Registration OTP";
     body := "Your OTP for NGO registration is " +:+ pretty code
             +:+ ". This code will expire in " +:+ pretty OTP_EXPIRY_MINUTES
             +:+ " minutes." |}.

(** The form in which the table and the requests are compared. *)
Definition normal (s : string) : string := Py.lower (Py.strip s).

(** Every stored code is a six-digit number. *)
Definition six_digit_codes (m : OtpStore) : Prop :=
  map_Forall (λ _ r, 100000 ≤ otp r ≤ 999999) m.

(** The clock of [w] after [n] readings. *)
Definition clock_after {S} (n : nat) (w : World S) : tape Z :=
  Tape (cells (clock w)) (n + pos (clock w)).

(** A world like [pending_world] whose clock is already past the expiry
    of every record, and one where the expiry of [ops] falls between the
    first two readings. *)
Definition late_world : World (gmap string UserRecord.t) :=
  sample_world (Json two_records) true 1000 1001 42 true ∅.

Definition racing_world : World (gmap string UserRecord.t) :=
  sample_world (Json two_records) true 999 1001 42 true ∅.

(** A world at time 10, when both records of [two_records] are live. *)
Definition early_world : World (gmap string UserRecord.t) :=
  sample_world (Json two_records) true 10 11 42 true ∅.

Definition read_only_world : World (gmap string UserRecord.t) :=
  sample_world (Json two_records) false 100 101 42 true ∅.

(** A rendering of exceptions, with Starlette's text for [HTTPException]. *)
Definition sample_exn_str (e : exn) : string :=
  match e with
  | HTTPException status_code detail => pretty status_code +:+ ": " +:+ detail
  | UserNotFoundError => "No user record found for the given email."
  | EmailAlreadyExistsError => "The user with the provided email already exists"
  | ValueError => "invalid literal for int() with base 10"
  | OtherException name => name
  end.

(** A conversion of timestamps for the listing that never raises. *)
Definition sample_strftime (t : Z) : exn + string := inr ("t=" +:+ pretty t).

(** Closes a goal on quotients of a natural number by constants. *)
Ltac n_div_lia :=
  first [apply N2Z.inj_lt | apply N2Z.inj]; rewrite ?N2Z.inj_div; simpl;
  Z.to_euclidean_division_equations; lia.

(** ** Basic facts about the world and the store operations *)

Section StoreFacts.

Context {S : Type}.
Implicit Types (w : World S) (m : OtpStore) (k : string) (r : OtpRecord).

Lemma stored_tick w : stored (tick w) = stored w.
Proof. reflexivity. Qed.

Lemma stored_persisted m w :
  stored (persisted m w) = if disk_writable w then m else stored w.
Proof. unfold persisted. by destruct (disk_writable w). Qed.

Lemma time_persisted m w : time (persisted m w) = time w.
Proof. unfold persisted. by destruct (disk_writable w). Qed.

Lemma tick_persisted m w : tick (persisted m w) = persisted m (tick w).
Proof. unfold persisted. simpl. by destruct (disk_writable w). Qed.

Lemma writable_persisted m w :
  disk_writable (persisted m w) = disk_writable w.
Proof. unfold persisted. by destruct (disk_writable w) eqn:E. Qed.

Lemma writable_tick w : disk_writable (tick w) = disk_writable w.
Proof. reflexivity. Qed.

Lemma unexpired_lookup now m k r :
  unexpired now m !! k = Some r ↔ m !! k = Some r ∧ now < expires_at r.
Proof. unfold unexpired. by rewrite map_lookup_filter_Some. Qed.

Lemma unexpired_lookup_None now m k :
  m !! k = None → unexpired now m !! k = None.
Proof.
  intros Hk. destruct (unexpired now m !! k) as [r|] eqn:E; [|done].
  apply unexpired_lookup in E as [E _]. congruence.
Qed.

Lemma unexpired_subseteq now m : unexpired now m ⊆ m.
Proof. apply map_filter_subseteq. Qed.

(** A record that outlives the later of two readings survives both
    clean-ups, in either order. *)
Lemma unexpired_unexpired now now' m k r :
  unexpired now m !! k = Some r → now' < expires_at r →
  unexpired now' (unexpired now m) !! k = Some r.
Proof. intros Hk Hlt. by apply unexpired_lookup. Qed.

Lemma load_otp_store_run w : load_otp_store w = (inr (stored w), w).
Proof. unfold load_otp_store, stored. by destruct (otp_file w). Qed.

Lemma save_otp_store_run m w :
  save_otp_store m w = (inr (disk_writable w), persisted m w).
Proof. unfold save_otp_store, persisted. by destruct (disk_writable w). Qed.

Lemma datetime_now_run w : datetime_now w = (inr (time w), tick w).
Proof. reflexivity. Qed.

Lemma clean_expired_otps_run w :
  clean_expired_otps w
  = (inr (unexpired (time w) (stored w)),
     persisted (unexpired (time w) (stored w)) (tick w)).
Proof.
  unfold clean_expired_otps, bind.
  rewrite load_otp_store_run, datetime_now_run, save_otp_store_run.
  reflexivity.
Qed.

End StoreFacts.

(** ** The consumption handler, path by path *)

Section ConsumptionFacts.

Context {S : Type}.
Variable max_str_digits : nat.
Implicit Types (w : World S) (data : OTPVerification.t) (r : OtpRecord).

Local Abbreviation email data := (OTPVerification.ngo_email data).
Local Abbreviation cleaned w := (unexpired (time w) (stored w)).
Local Abbreviation after_clean w := (persisted (cleaned w) (tick w)).

(** Step 2: no record survives the clean-up. *)
Lemma verify_otp_no_record data w :
  cleaned w !! email data = None →
  verify_otp max_str_digits data w = (inl NoPendingOtp, after_clean w).
Proof.
  intros Hk. unfold verify_otp, bind.
  rewrite clean_expired_otps_run. unfold contains.
  rewrite Hk, bool_decide_eq_false_2; [reflexivity|].
  by intros [? ?].
Qed.

(** Steps 1 and 2 passed: what is left of the handler runs from the world
    after the clean-up, with the record in hand. *)
Lemma verify_otp_record data w r :
  cleaned w !! email data = Some r →
  verify_otp max_str_digits data w
  = (let otp_store := cleaned w in
     now <- datetime_now ;;
     when (expires_at r <? now)
          (save_otp_store (delete (email data) otp_store) ;; raise Expired) ;;
     submitted <- int max_str_digits (OTPVerification.otp data) ;;
     when (negb (otp r =? submitted)) (raise Mismatch) ;;
     save_otp_store (delete (email data) otp_store) ;;
     ret otp_verified) (after_clean w).
Proof.
  intros Hk. unfold verify_otp at 1. unfold bind at 1.
  rewrite clean_expired_otps_run. unfold bind at 1, contains, getitem.
  rewrite Hk, bool_decide_eq_true_2 by eauto. reflexivity.
Qed.

(** Step 3: the record expired between the clean-up and the check. *)
Lemma verify_otp_expired data w r :
  cleaned w !! email data = Some r →
  expires_at r < time (tick w) →
  verify_otp max_str_digits data w
  = (inl Expired,
     persisted (delete (email data) (cleaned w)) (tick (after_clean w))).
Proof.
  intros Hk Hlate. rewrite (verify_otp_record _ _ _ Hk).
  unfold bind. rewrite datetime_now_run, time_persisted.
  apply Z.ltb_lt in Hlate. rewrite Hlate. simpl.
  unfold bind. by rewrite save_otp_store_run.
Qed.

(** The submitted text is not an integer literal: [int] raises and nothing
    in the handler catches it. *)
Lemma verify_otp_malformed data w r :
  cleaned w !! email data = Some r →
  time (tick w) ≤ expires_at r →
  Py.int max_str_digits (OTPVerification.otp data) = None →
  verify_otp max_str_digits data w = (inl ValueError, tick (after_clean w)).
Proof.
  intros Hk Hlive Hint. rewrite (verify_otp_record _ _ _ Hk).
  unfold bind. rewrite datetime_now_run, time_persisted.
  apply Z.ltb_ge in Hlive. rewrite Hlive. simpl.
  unfold int. by rewrite Hint.
Qed.

(** Step 4: another integer than the stored code. *)
Lemma verify_otp_mismatch data w r n :
  cleaned w !! email data = Some r →
  time (tick w) ≤ expires_at r →
  Py.int max_str_digits (OTPVerification.otp data) = Some n →
  n ≠ otp r →
  verify_otp max_str_digits data w = (inl Mismatch, tick (after_clean w)).
Proof.
  intros Hk Hlive Hint Hne. rewrite (verify_otp_record _ _ _ Hk).
  unfold bind. rewrite datetime_now_run, time_persisted.
  apply Z.ltb_ge in Hlive. rewrite Hlive. simpl.
  unfold int. rewrite Hint. simpl.
  apply not_eq_sym, Z.eqb_neq in Hne. by rewrite Hne.
Qed.

(** Step 5: the stored code. *)
Lemma verify_otp_match data w r :
  cleaned w !! email data = Some r →
  time (tick w) ≤ expires_at r →
  Py.int max_str_digits (OTPVerification.otp data) = Some (otp r) →
  verify_otp max_str_digits data w
  = (inr otp_verified,
     persisted (delete (email data) (cleaned w)) (tick (after_clean w))).
Proof.
  intros Hk Hlive Hint. rewrite (verify_otp_record _ _ _ Hk).
  unfold bind. rewrite datetime_now_run, time_persisted.
  apply Z.ltb_ge in Hlive. rewrite Hlive. simpl.
  unfold int. rewrite Hint. simpl. rewrite Z.eqb_refl. simpl.
  by rewrite save_otp_store_run.
Qed.

End ConsumptionFacts.

(** ** The OTP store and the consumption handler: the claims *)

Section ConsumptionClaims.

Context {S : Type}.
Variable max_str_digits : nat.
Implicit Types (w : World S) (data : OTPVerification.t) (r : OtpRecord).

Local Abbreviation email data := (OTPVerification.ngo_email data).
Local Abbreviation cleaned w := (unexpired (time w) (stored w)).
Local Abbreviation after_clean w := (persisted (cleaned w) (tick w)).

(** The store after the handler removed the contact's record and saved:
    the contact is gone when the save went through, and every record of
    another contact that survived the clean-up is still there. *)
Lemma stored_after_removal w k :
  let w1 := persisted (delete k (cleaned w)) (tick (after_clean w)) in
  (disk_writable w = true → stored w1 !! k = None)
  ∧ ∀ k' r, k' ≠ k → stored w !! k' = Some r → time w < expires_at r →
            stored w1 !! k' = Some r.
Proof.
  intros w1. subst w1.
  rewrite stored_persisted, writable_tick, writable_persisted, writable_tick.
  rewrite stored_tick, stored_persisted, writable_tick, stored_tick.
  split.
  - intros ->. apply lookup_delete_eq.
  - intros k' r Hne Hk' Hlive. destruct (disk_writable w); [|done].
    rewrite lookup_delete_ne by done. by apply unexpired_lookup.
Qed.

(** The store after a request that only cleaned up still holds every
    record that outlives the clean-up. *)
Lemma stored_after_clean w k r :
  stored w !! k = Some r → time w < expires_at r →
  stored (tick (after_clean w)) !! k = Some r.
Proof.
  intros Hk Hlive.
  rewrite stored_tick, stored_persisted, writable_tick, stored_tick.
  destruct (disk_writable w); [|done]. by apply unexpired_lookup.
Qed.

(** C5. For every stored mapping and every reading of the clock,
    [clean_expired_otps] loads the mapping, keeps exactly the records
    whose expiry lies after the reading (a record whose expiry is at or
    before it is removed), writes the kept records to the file and returns
    them; a mapping of one expired and one live record comes back as the
    live record alone. The file is assumed writable: a failed save is
    swallowed by [save_otp_store]. *)
Theorem clean_expired_otps_keeps_exactly_live w :
  disk_writable w = true →
  ∃ kept w',
    clean_expired_otps w = (inr kept, w')
    ∧ otp_file w' = Json kept
    ∧ (∀ k r, kept !! k = Some r
              ↔ stored w !! k = Some r ∧ time w < expires_at r)
    ∧ (∀ k1 k2 r1 r2,
         k1 ≠ k2 → stored w = <[k1 := r1]> {[k2 := r2]} →
         expires_at r1 ≤ time w → time w < expires_at r2 →
         kept = {[k2 := r2]}).
Proof.
  intros Hw. exists (cleaned w), (after_clean w).
  split; [apply clean_expired_otps_run|].
  split; [unfold persisted; simpl; by rewrite Hw|].
  split; [intros k r; apply unexpired_lookup|].
  intros k1 k2 r1 r2 Hne -> Hdead Hlive. unfold unexpired.
  rewrite map_filter_insert_False by (simpl; lia).
  rewrite delete_singleton_ne by done.
  by rewrite map_filter_singleton_True.
Qed.

(** C3. A contact has a pending record that is not expired at the two
    readings the request takes (the clean-up's and the expiry check's),
    and the submitted text parses to the stored code: the handler answers
    with success and the record is gone from the store, so the same
    request repeated at once fails with [NoPendingOtp]. The file is
    assumed writable. *)
Theorem verify_otp_consumes_exactly_once data w r :
  disk_writable w = true →
  stored w !! email data = Some r →
  time w < expires_at r →
  time (tick w) ≤ expires_at r →
  Py.int max_str_digits (OTPVerification.otp data) = Some (otp r) →
  ∃ w1 w2,
    verify_otp max_str_digits data w = (inr otp_verified, w1)
    ∧ stored w1 !! email data = None
    ∧ verify_otp max_str_digits data w1 = (inl NoPendingOtp, w2).
Proof.
  intros Hw Hk Hlive1 Hlive2 Hint.
  assert (cleaned w !! email data = Some r) as Hc by by apply unexpired_lookup.
  eexists _, _. split; [by apply (verify_otp_match _ _ _ r)|].
  destruct (stored_after_removal w (email data)) as [Hgone _].
  split; [by apply Hgone|].
  apply verify_otp_no_record, unexpired_lookup_None. by apply Hgone.
Qed.

(** C4. A contact has a pending record that is not expired at the two
    readings the request takes, and the submitted text parses to an
    integer other than the stored code: the handler fails with [Mismatch]
    and the record is still in the store, unchanged, so a later request
    with the stored code, taken before the expiry, succeeds. *)
Theorem verify_otp_mismatch_keeps_record data w r n :
  stored w !! email data = Some r →
  time w < expires_at r →
  time (tick w) ≤ expires_at r →
  Py.int max_str_digits (OTPVerification.otp data) = Some n →
  n ≠ otp r →
  ∃ w1,
    verify_otp max_str_digits data w = (inl Mismatch, w1)
    ∧ stored w1 !! email data = Some r
    ∧ ∀ data',
        email data' = email data →
        Py.int max_str_digits (OTPVerification.otp data') = Some (otp r) →
        time w1 < expires_at r →
        time (tick w1) ≤ expires_at r →
        ∃ w2, verify_otp max_str_digits data' w1 = (inr otp_verified, w2).
Proof.
  intros Hk Hlive1 Hlive2 Hint Hne.
  assert (cleaned w !! email data = Some r) as Hc by by apply unexpired_lookup.
  eexists. split; [by apply (verify_otp_mismatch _ _ _ r n)|].
  pose proof (stored_after_clean w _ r Hk Hlive1) as Hstill.
  split; [done|].
  intros data' Heq Hint' Hlive1' Hlive2'. rewrite <- Heq in Hstill.
  eexists. apply (verify_otp_match _ _ _ r); [|done..].
  by apply unexpired_lookup.
Qed.


(** A pending, live record and a text that is no integer literal: the
    handler ends with the [ValueError] of [int]. *)
Lemma verify_otp_malformed_pending data w r :
  stored w !! email data = Some r →
  time w < expires_at r →
  time (tick w) ≤ expires_at r →
  Py.int max_str_digits (OTPVerification.otp data) = None →
  fst (verify_otp max_str_digits data w) = inl ValueError.
Proof.
  intros Hk Hlive1 Hlive2 Hint.
  rewrite (verify_otp_malformed _ _ _ r); [done| |done..].
  by apply unexpired_lookup.
Qed.

(** With no pending record the text is never parsed: any text, malformed
    or not, gets [NoPendingOtp]. *)
Lemma verify_otp_unparsed_without_record data w :
  stored w !! email data = None →
  fst (verify_otp max_str_digits data w) = inl NoPendingOtp.
Proof.
  intros Hk. rewrite verify_otp_no_record; [done|].
  by apply unexpired_lookup_None.
Qed.

(** A request whose clean-up reading is at or past the expiry finds the
    record already purged: it gets [NoPendingOtp]; [Expired] is left to
    the case where the expiry falls between the two readings. *)
Lemma verify_otp_after_expiry data w r :
  stored w !! email data = Some r →
  expires_at r ≤ time w →
  fst (verify_otp max_str_digits data w) = inl NoPendingOtp.
Proof.
  intros Hk Hdead. rewrite verify_otp_no_record; [done|].
  destruct (cleaned w !! email data) as [r'|] eqn:E; [|done].
  apply unexpired_lookup in E as [E Hlive]. simplify_eq. lia.
Qed.

End ConsumptionClaims.

(** ** The decimal rendering of a code *)

(** An integer of 100000..999999 is written with six decimal digits, as in
    the message sent to the contact. *)
Lemma pretty_six_digits (n : Z) :
  100000 ≤ n ≤ 999999 → String.length (pretty n) = 6%nat.
Proof.
  intros Hn. destruct n as [|p|p]; [lia| |lia].
  unfold pretty, pretty_Z, pretty, pretty_positive, pretty, pretty_N.
  rewrite decide_False by done.
  assert (100000 ≤ N.pos p ≤ 999999)%N as Hp by lia.
  generalize dependent (N.pos p). intros x Hx.
  do 6 (rewrite pretty_N_go_step by n_div_lia).
  replace (x / 10 / 10 / 10 / 10 / 10 / 10)%N with 0%N by n_div_lia.
  reflexivity.
Qed.

(** ** The verification handler, path by path *)

Section VerificationFacts.

Context {S : Type} `{!Auth S}.
Variable df : list NgoRow.
Implicit Types (w : World S) (data : NGOVerification.t).

Local Abbreviation name data := (NGOVerification.ngo_name data).
Local Abbreviation email data := (NGOVerification.ngo_email data).

(** Step 1 fails: nothing was read or written. *)
Lemma verify_ngo_not_found data w :
  joint_matches df (name data) (email data) = [] →
  verify_ngo df data w = (inl NotFound, w).
Proof.
  intros Hnone. unfold verify_ngo, bind. fold (joint_matches df (name data) (email data)).
  by rewrite Hnone.
Qed.

(** Step 2 finds an account: only the provider was called. *)
Lemma verify_ngo_already_registered data w user s' :
  joint_matches df (name data) (email data) ≠ [] →
  get_user_by_email (email data) (auth_state w) = (inr user, s') →
  verify_ngo df data w = (inl AlreadyRegistered, set_auth_state s' w).
Proof.
  intros Hsome Hget. unfold verify_ngo. unfold bind at 1.
  fold (joint_matches df (name data) (email data)).
  rewrite bool_decide_eq_false_2 by done. simpl.
  unfold bind at 1, try_except, bind at 1, auth_get_user_by_email.
  by rewrite Hget.
Qed.

(** Step 2 meets another error of the provider: it propagates. *)
Lemma verify_ngo_provider_error data w e s' :
  joint_matches df (name data) (email data) ≠ [] →
  get_user_by_email (email data) (auth_state w) = (inl e, s') →
  e ≠ UserNotFoundError →
  verify_ngo df data w = (inl e, set_auth_state s' w).
Proof.
  intros Hsome Hget Hne. unfold verify_ngo. unfold bind at 1.
  fold (joint_matches df (name data) (email data)).
  rewrite bool_decide_eq_false_2 by done. simpl.
  unfold bind at 1, try_except, bind at 1, auth_get_user_by_email.
  rewrite Hget. by destruct e.
Qed.

(** Both checks pass: the handler cleans up, draws a code, stores the
    record and tries to send the code. *)
Lemma verify_ngo_issues data w s' :
  joint_matches df (name data) (email data) ≠ [] →
  get_user_by_email (email data) (auth_state w) = (inl UserNotFoundError, s') →
  let code := 100000 + draw w mod 900000 in
  let record :=
    {| otp := code;
       expires_at := time (tick w) + timedelta_minutes OTP_EXPIRY_MINUTES |} in
  ∃ w1,
    verify_ngo df data w
    = (if relay_up w then inr otp_sent else inl NotificationFailure, w1)
    ∧ stored w1
      = if disk_writable w
        then <[email data := record]> (unexpired (time w) (stored w))
        else stored w.
Proof.
  intros Hsome Hget code record. unfold verify_ngo. unfold bind at 1.
  fold (joint_matches df (name data) (email data)).
  rewrite bool_decide_eq_false_2 by done. simpl.
  unfold bind at 1, try_except, bind at 1, auth_get_user_by_email.
  rewrite Hget. simpl.
  unfold bind at 1. rewrite clean_expired_otps_run.
  unfold bind at 1, random_randint. simpl.
  unfold bind at 1. rewrite load_otp_store_run.
  unfold bind at 1. rewrite datetime_now_run.
  unfold bind at 1. rewrite save_otp_store_run.
  unfold bind at 1, send_email.
  destruct w as [file writable clk rnd sm ob st]. simpl in *.
  unfold persisted, relay_up, stored. simpl.
  destruct writable; simpl; destruct (cells sm (pos sm)); simpl;
    eexists; (split; [reflexivity|]); simpl; reflexivity.
Qed.

End VerificationFacts.

(** ** The verification handler: the claims *)

Section VerificationClaims.

Context {S : Type} `{!Auth S}.
Variable df : list NgoRow.
Implicit Types (w : World S) (data : NGOVerification.t).

Local Abbreviation name data := (NGOVerification.ngo_name data).
Local Abbreviation email data := (NGOVerification.ngo_email data).



(** C9. A verification request that fails with [NotFound] or with
    [AlreadyRegistered] leaves the store file as it was, and has not read
    the clock: no record was added, overwritten or cleaned. *)
Theorem verify_ngo_rejection_leaves_store data w res w1 :
  verify_ngo df data w = (res, w1) →
  res = inl NotFound ∨ res = inl AlreadyRegistered →
  otp_file w1 = otp_file w ∧ stored w1 = stored w ∧ clock w1 = clock w.
Proof.
  intros Hrun Hres.
  destruct (decide (joint_matches df (name data) (email data) = []))
    as [Hnone|Hsome].
  { rewrite verify_ngo_not_found in Hrun by done. by injection Hrun as _ <-. }
  destruct (get_user_by_email (email data) (auth_state w)) as [[e|user] s']
    eqn:Hget.
  - destruct (decide (e = UserNotFoundError)) as [->|Hne].
    + destruct (verify_ngo_issues df data w s' Hsome Hget) as (w' & Hrun' & _).
      rewrite Hrun' in Hrun. injection Hrun as <- _.
      destruct (relay_up w), Hres; discriminate.
    + rewrite (verify_ngo_provider_error df data w e s') in Hrun by done.
      by injection Hrun as _ <-.
  - rewrite (verify_ngo_already_registered df data w user s') in Hrun by done.
    by injection Hrun as _ <-.
Qed.

End VerificationClaims.

(** ** Signup and login *)

Section AccountFacts.

Context {S : Type} `{!Auth S}.
Variable df : list NgoRow.
Variable exn_str : exn → string.
Implicit Types (w : World S).

(** The contact matches no row: the handler raises the 404 response inside
    its [try], where the [except Exception] clause catches it and raises a
    500 response in its place. The provider is not called. *)
Lemma complete_signup_unknown_contact (data : SignupModel.t) w :
  email_matches df (SignupModel.ngo_email data) = [] →
  complete_signup df exn_str data w
  = (inl (HTTPException 500
            ("Registration failed: " +:+ exn_str SignupNotFound)), w).
Proof.
  intros Hnone. unfold complete_signup, try_except.
  fold (email_matches df (SignupModel.ngo_email data)). by rewrite Hnone.
Qed.

(** The contact matches a row and the provider creates the account. *)
Lemma complete_signup_created (data : SignupModel.t) w row rows user s' :
  email_matches df (SignupModel.ngo_email data) = row :: rows →
  create_user (SignupModel.ngo_email data) (SignupModel.password data)
              (Ngo_Name row) (auth_state w) = (inr user, s') →
  complete_signup df exn_str data w
  = (inr [("message", "NGO registered successfully");
          ("uid", UserRecord.uid user); ("ngo_name", Ngo_Name row)],
     set_auth_state s' w).
Proof.
  intros Hrows Hcreate. unfold complete_signup, try_except.
  fold (email_matches df (SignupModel.ngo_email data)). rewrite Hrows.
  unfold bind, auth_create_user. by rewrite Hcreate.
Qed.

(** What [login] does with each answer of the provider. *)
Lemma login_run (data : LoginModel.t) w :
  login exn_str data w
  = match get_user_by_email (LoginModel.email data) (auth_state w) with
    | (inr user, s') => (inr (login_successful user), set_auth_state s' w)
    | (inl UserNotFoundError, s') =>
        (inl InvalidCredentials, set_auth_state s' w)
    | (inl (HTTPException code detail), s') =>
        (inl (HTTPException code detail), set_auth_state s' w)
    | (inl e, s') =>
        (inl (HTTPException 500 ("Login failed: " +:+ exn_str e)),
         set_auth_state s' w)
    end.
Proof.
  unfold login, try_except, bind, auth_get_user_by_email.
  destruct (get_user_by_email _ _) as [[e|user] s']; [|done].
  by destruct e.
Qed.

(** C8. The outcome of [login] does not depend on the submitted password:
    two requests with the same email and any two passwords end alike, in
    the same world; when the provider reports no account for the email
    the handler fails with [InvalidCredentials], and when it returns an
    account the handler answers with success and that account's profile
    (uid, display name or the default label, email). *)
Theorem login_ignores_password (email password password' : string) w :
  login exn_str {| LoginModel.email := email;
                   LoginModel.password := password |} w
  = login exn_str {| LoginModel.email := email;
                     LoginModel.password := password' |} w
  ∧ (∀ s', get_user_by_email email (auth_state w)
           = (inl UserNotFoundError, s') →
           login exn_str {| LoginModel.email := email;
                            LoginModel.password := password |} w
           = (inl InvalidCredentials, set_auth_state s' w))
  ∧ (∀ user s', get_user_by_email email (auth_state w) = (inr user, s') →
                login exn_str {| LoginModel.email := email;
                                 LoginModel.password := password |} w
                = (inr (login_successful user), set_auth_state s' w)).
Proof.
  split; [by rewrite !login_run|].
  split.
  - intros s' Hget. rewrite login_run. simpl. by rewrite Hget.
  - intros user s' Hget. rewrite login_run. simpl. by rewrite Hget.
Qed.

End AccountFacts.

(** ** The claims on concrete requests *)

Example strip_lower_example :
  Py.lower (Py.strip "  Ops@HelpingHands.ORG ") = "ops@helpinghands.org".
Proof. reflexivity. Qed.

Example int_examples :
  Py.int 4300 " 123456 " = Some 123456 ∧ Py.int 4300 "1_000" = Some 1000
  ∧ Py.int 4300 "-007" = Some (-7) ∧ Py.int 4300 "12a456" = None
  ∧ Py.int 4300 "" = None ∧ Py.int 4300 "1__0" = None
  ∧ Py.int 4300 "+ 1" = None ∧ Py.int 3 "1234" = None.
Proof. repeat split; reflexivity. Qed.

Example clean_expired_otps_example :
  fst (clean_expired_otps pending_world) = inr {[ops := ops_record]}.
Proof. vm_compute. reflexivity. Qed.

Lemma clean_expired_otps_keeps_exactly_live_witness :
  ∃ kept w',
    clean_expired_otps pending_world = (inr kept, w')
    ∧ otp_file w' = Json kept
    ∧ (∀ k r, kept !! k = Some r
              ↔ stored pending_world !! k = Some r
                ∧ time pending_world < expires_at r)
    ∧ (∀ k1 k2 r1 r2,
         k1 ≠ k2 → stored pending_world = <[k1 := r1]> {[k2 := r2]} →
         expires_at r1 ≤ time pending_world →
         time pending_world < expires_at r2 →
         kept = {[k2 := r2]}).
Proof.
  apply (clean_expired_otps_keeps_exactly_live pending_world). reflexivity.
Defined.

Lemma verify_otp_consumes_exactly_once_witness :
  ∃ w1 w2,
    verify_otp 4300 (submit "123456") pending_world = (inr otp_verified, w1)
    ∧ stored w1 !! ops = None
    ∧ verify_otp 4300 (submit "123456") w1 = (inl NoPendingOtp, w2).
Proof.
  apply (verify_otp_consumes_exactly_once 4300 (submit "123456")
           pending_world ops_record).
  - reflexivity.
  - vm_compute. reflexivity.
  - vm_compute. reflexivity.
  - vm_compute. discriminate.
  - reflexivity.
Defined.

Lemma verify_otp_mismatch_keeps_record_witness :
  ∃ w1,
    verify_otp 4300 (submit "111111") pending_world = (inl Mismatch, w1)
    ∧ stored w1 !! ops = Some ops_record
    ∧ ∀ data',
        OTPVerification.ngo_email data' = ops →
        Py.int 4300 (OTPVerification.otp data') = Some 123456 →
        time w1 < 1000 →
        time (tick w1) ≤ 1000 →
        ∃ w2, verify_otp 4300 data' w1 = (inr otp_verified, w2).
Proof.
  apply (verify_otp_mismatch_keeps_record 4300 (submit "111111")
           pending_world ops_record 111111).
  - vm_compute. reflexivity.
  - vm_compute. reflexivity.
  - vm_compute. discriminate.
  - reflexivity.
  - vm_compute. discriminate.
Defined.




Lemma verify_ngo_rejection_leaves_store_witness :
  otp_file (snd (verify_ngo sample_df helping_hands registered_world))
  = otp_file registered_world
  ∧ stored (snd (verify_ngo sample_df helping_hands registered_world))
    = stored registered_world
  ∧ clock (snd (verify_ngo sample_df helping_hands registered_world))
    = clock registered_world.
Proof.
  apply (verify_ngo_rejection_leaves_store sample_df helping_hands
           registered_world
           (fst (verify_ngo sample_df helping_hands registered_world))).
  - apply surjective_pairing.
  - right. vm_compute. reflexivity.
Defined.

Example verify_ngo_example :
  ∃ w1,
    verify_ngo sample_df helping_hands pending_world = (inr otp_sent, w1)
    ∧ stored w1
      = {[ops := {| otp := 100042; expires_at := 600000101 |}]}
    ∧ outbox w1
      = [{| recipient := ops; subject := "NGO Registration OTP";
            body := "Your OTP for NGO registration is 100042. "
                    +:+ "This code will expire in 10 minutes." |}].
Proof. eexists. split; [vm_compute; reflexivity|]. split; reflexivity. Qed.

Example login_example (exn_str : exn → string) :
  fst (login exn_str {| LoginModel.email := ops;
                        LoginModel.password := "wrong" |} registered_world)
  = inr [("message", "Login successful"); ("uid", "u1");
         ("ngo_name", "Helping Hands"); ("email", ops)].
Proof. reflexivity. Qed.

(** C1. A request for a contact with a pending, live record whose code
    field is not an integer literal: the handler does not answer with an
    error response; the [ValueError] raised by [int] leaves it uncaught. *)
Theorem verify_otp_malformed_code_uncaught :
  fst (verify_otp 4300 (submit "12a456") pending_world) = inl ValueError.
Proof.
  apply (verify_otp_malformed_pending 4300 (submit "12a456") pending_world
           ops_record).
  - vm_compute. reflexivity.
  - vm_compute. reflexivity.
  - vm_compute. discriminate.
  - reflexivity.
Qed.

(** C2. A signup request for a contact that matches no row of the table:
    no account is created, but the handler answers with status 500, not
    404: its own 404 response is caught by its [except Exception] clause
    and replaced. *)
Theorem complete_signup_unknown_contact_gets_500 (exn_str : exn → string) :
  complete_signup sample_df exn_str
    {| SignupModel.ngo_email := "nobody@example.org";
       SignupModel.password := "secret" |} pending_world
  = (inl (HTTPException 500
            ("Registration failed: " +:+ exn_str SignupNotFound)),
     pending_world).
Proof. by apply complete_signup_unknown_contact. Qed.

Example verify_otp_expired_example :
  ∃ w1,
    verify_otp 4300 (submit "123456")
      (sample_world (Json two_records) true 100 2000 42 true ∅)
    = (inl Expired, w1)
    ∧ stored w1 = ∅.
Proof. eexists. split; [vm_compute; reflexivity|reflexivity]. Qed.

(** ** Further properties of the OTP store *)

Section StoreProperties.

Context {S : Type}.
Implicit Types (w : World S) (m : OtpStore) (k : string) (r : OtpRecord).

Lemma unexpired_later now now' m :
  now ≤ now' → unexpired now' (unexpired now m) = unexpired now' m.
Proof.
  intros Hle. apply map_eq. intros k. apply option_eq. intros r.
  rewrite !unexpired_lookup. intuition lia.
Qed.

Lemma unexpired_mono now now' m :
  now ≤ now' → unexpired now' m ⊆ unexpired now m.
Proof.
  intros Hle. apply map_subseteq_spec. intros k r.
  rewrite !unexpired_lookup. intuition lia.
Qed.

(** What an attempt to save [m] leaves in the store, relative to what was
    there: a sub-mapping of the old content whenever [m] is one. *)
Lemma stored_persisted_subseteq m w :
  m ⊆ stored w → stored (persisted m w) ⊆ stored w.
Proof. intros Hm. rewrite stored_persisted. by destruct (disk_writable w). Qed.



End StoreProperties.

(** ** Further properties of the consumption handler *)

Section ConsumptionProperties.

Context {S : Type}.
Variable max_str_digits : nat.
Implicit Types (w : World S) (data : OTPVerification.t) (r : OtpRecord).

Local Abbreviation email data := (OTPVerification.ngo_email data).
Local Abbreviation cleaned w := (unexpired (time w) (stored w)).
Local Abbreviation after_clean w := (persisted (cleaned w) (tick w)).

(** The five ways the handler can end, with the world each one leaves. *)
Lemma verify_otp_cases data w :
  (cleaned w !! email data = None
   ∧ verify_otp max_str_digits data w = (inl NoPendingOtp, after_clean w))
  ∨ ∃ r, cleaned w !! email data = Some r
         ∧ ((expires_at r < time (tick w)
             ∧ verify_otp max_str_digits data w
               = (inl Expired,
                  persisted (delete (email data) (cleaned w))
                            (tick (after_clean w))))
            ∨ (time (tick w) ≤ expires_at r
               ∧ ((Py.int max_str_digits (OTPVerification.otp data) = None
                   ∧ verify_otp max_str_digits data w
                     = (inl ValueError, tick (after_clean w)))
                  ∨ (∃ n, Py.int max_str_digits (OTPVerification.otp data)
                          = Some n ∧ n ≠ otp r
                          ∧ verify_otp max_str_digits data w
                            = (inl Mismatch, tick (after_clean w)))
                  ∨ (Py.int max_str_digits (OTPVerification.otp data)
                     = Some (otp r)
                     ∧ verify_otp max_str_digits data w
                       = (inr otp_verified,
                          persisted (delete (email data) (cleaned w))
                                    (tick (after_clean w))))))).
Proof.
  destruct (cleaned w !! email data) as [r|] eqn:Hc.
  2: { left. split; [done|]. by apply verify_otp_no_record. }
  right. exists r. split; [done|].
  destruct (Z_lt_le_dec (expires_at r) (time (tick w))) as [Hlate|Hlive].
  { left. split; [done|]. by apply (verify_otp_expired _ _ _ r). }
  right. split; [done|].
  destruct (Py.int max_str_digits (OTPVerification.otp data)) as [n|] eqn:Hint.
  2: { left. split; [done|]. by apply (verify_otp_malformed _ _ _ r). }
  right. destruct (decide (n = otp r)) as [->|Hne].
  - right. split; [done|]. by apply (verify_otp_match _ _ _ r).
  - left. exists n. split; [done|]. split; [done|].
    by apply (verify_otp_mismatch _ _ _ r n).
Qed.

(** X3. The handler ends in one of five ways: success, [NoPendingOtp],
    [Expired], [Mismatch], or the [ValueError] of [int], the last only for
    a text that [int] refuses. The dictionary lookup after the membership
    test never raises [KeyError]. *)
Theorem verify_otp_outcomes data w :
  fst (verify_otp max_str_digits data w) = inr otp_verified
  ∨ fst (verify_otp max_str_digits data w) = inl NoPendingOtp
  ∨ fst (verify_otp max_str_digits data w) = inl Expired
  ∨ fst (verify_otp max_str_digits data w) = inl Mismatch
  ∨ (fst (verify_otp max_str_digits data w) = inl ValueError
     ∧ Py.int max_str_digits (OTPVerification.otp data) = None).
Proof.
  destruct (verify_otp_cases data w)
    as [[_ ->]|(r & _ & [[_ ->]|[_ [[? ->]|[(n & _ & _ & ->)|[_ ->]]]]])];
    simpl; auto 6.
Qed.

(** The store after the handler, whatever the outcome, is contained in the
    store before it. *)
Lemma verify_otp_stored_subseteq data w :
  stored (snd (verify_otp max_str_digits data w)) ⊆ stored w.
Proof.
  assert (stored (after_clean w) ⊆ stored w) as Hclean.
  { apply (stored_persisted_subseteq _ (tick w)), unexpired_subseteq. }
  assert (stored (persisted (delete (email data) (cleaned w))
                            (tick (after_clean w))) ⊆ stored w) as Hdel.
  { rewrite stored_persisted, writable_tick, stored_tick.
    destruct (disk_writable (after_clean w)); [|done].
    etrans; [apply delete_subseteq|apply unexpired_subseteq]. }
  destruct (verify_otp_cases data w)
    as [[_ ->]|(r & _ & [[_ ->]|[_ [[? ->]|[(n & _ & _ & ->)|[_ ->]]]]])];
    simpl; done.
Qed.

(** X4. Whatever the outcome, the handler adds no record to the store and
    changes none: the store after the request is contained in the store
    before it, and a record that is gone after the request either
    belonged to the submitted contact or was expired at the clean-up's
    reading of the clock. *)
Theorem verify_otp_store_shrinks data w :
  stored (snd (verify_otp max_str_digits data w)) ⊆ stored w
  ∧ ∀ k r, stored w !! k = Some r →
           stored (snd (verify_otp max_str_digits data w)) !! k = None →
           k = email data ∨ expires_at r ≤ time w.
Proof.
  split; [apply verify_otp_stored_subseteq|].
  intros k r Hk Hgone.
  destruct (decide (k = email data)) as [|Hne]; [by left|right].
  destruct (Z_lt_le_dec (time w) (expires_at r)) as [Hlive|]; [|done].
  exfalso.
  pose proof (stored_after_clean w k r Hk Hlive) as Hclean.
  pose proof Hclean as Hclean'. rewrite stored_tick in Hclean'.
  destruct (stored_after_removal w (email data)) as [_ Hframe].
  specialize (Hframe k r Hne Hk Hlive).
  destruct (verify_otp_cases data w)
    as [[_ Hrun]|(r' & _ & [[_ Hrun]|[_ [[? Hrun]|[(n & _ & _ & Hrun)
                                                  |[_ Hrun]]]]])];
    rewrite Hrun in Hgone; simpl in Hgone; congruence.
Qed.

(** X5. A request whose first clock reading is at or past the record's
    expiry is answered with [NoPendingOtp], not [Expired]: the clean-up at
    the start of the handler has already dropped the record, and the
    store no longer holds it once the clean-up is saved. *)
Theorem verify_otp_late_gets_no_pending data w r :
  stored w !! email data = Some r →
  expires_at r ≤ time w →
  ∃ w1,
    verify_otp max_str_digits data w = (inl NoPendingOtp, w1)
    ∧ (disk_writable w = true → stored w1 !! email data = None).
Proof.
  intros Hk Hdead.
  assert (cleaned w !! email data = None) as Hc.
  { destruct (cleaned w !! email data) as [r'|] eqn:E; [|done].
    apply unexpired_lookup in E as [E Hlive]. simplify_eq. lia. }
  eexists. split; [by apply verify_otp_no_record|].
  intros Hw. by rewrite stored_persisted, writable_tick, Hw.
Qed.

(** X6. The handler answers [Expired] exactly when the contact's record
    is live at the clean-up's reading of the clock and expired at the
    reading taken for the check, that is, when the expiry falls strictly
    between the two readings. *)
Theorem verify_otp_expired_iff data w :
  fst (verify_otp max_str_digits data w) = inl Expired
  ↔ ∃ r, stored w !! email data = Some r
         ∧ time w < expires_at r < time (tick w).
Proof.
  split.
  - intros Hres.
    destruct (verify_otp_cases data w)
      as [[_ Hrun]|(r & Hc & [[Hlate Hrun]|[_ [[? Hrun]|[(n & _ & _ & Hrun)
                                                        |[_ Hrun]]]]])];
      rewrite Hrun in Hres; try discriminate.
    apply unexpired_lookup in Hc as [Hk Hlive]. eauto.
  - intros (r & Hk & Hlive & Hlate).
    rewrite (verify_otp_expired _ _ _ r); [done| |done].
    by apply unexpired_lookup.
Qed.

(** X7. The submitted code counts only through the integer [int] reads
    from it: two requests for the same contact whose texts [int] treats
    alike (the same integer, or both refused) end alike and leave the same
    world. Blanks around the digits, a plus sign, leading zeros and
    underscores between digits make no difference. *)
Theorem verify_otp_reads_code_as_integer (contact code code' : string) w :
  Py.int max_str_digits code = Py.int max_str_digits code' →
  verify_otp max_str_digits
    {| OTPVerification.ngo_email := contact; OTPVerification.otp := code |} w
  = verify_otp max_str_digits
      {| OTPVerification.ngo_email := contact;
         OTPVerification.otp := code' |} w.
Proof.
  intros Hint.
  destruct (cleaned w !! contact) as [r|] eqn:Hc.
  - rewrite !(verify_otp_record _ _ _ r) by done. simpl.
    unfold int. by rewrite Hint.
  - by rewrite !verify_otp_no_record.
Qed.

End ConsumptionProperties.

(** ** The code in the message, read back *)

Lemma digit_char_not_blank (d : N) : Py.int_blank (pretty_N_char d) = false.
Proof. unfold pretty_N_char. by repeat case_match. Qed.

Lemma digit_char_value (d : N) :
  (d < 10)%N → Py.digit_value (pretty_N_char d) = Some (Z.of_N d).
Proof.
  intros Hd.
  assert (d = 0 ∨ d = 1 ∨ d = 2 ∨ d = 3 ∨ d = 4 ∨ d = 5 ∨ d = 6 ∨ d = 7
          ∨ d = 8 ∨ d = 9)%N as Hcases by lia.
  repeat destruct Hcases as [->|Hcases]; try subst d; reflexivity.
Qed.

Lemma rstrip_with_cons sp c s :
  sp c = false →
  Py.rstrip_with sp (String c s) = String c (Py.rstrip_with sp s).
Proof. intros Hc. simpl. rewrite Hc. by destruct (Py.rstrip_with sp s). Qed.

Lemma scan_digits_digit prev acc count c d s :
  Py.digit_value c = Some d →
  Py.scan_digits prev acc count (String c s)
  = Py.scan_digits Py.AfterDigit (10 * acc + d) (S count) s.
Proof. intros Hd. simpl. by rewrite Hd. Qed.

(** [int] on a text that starts with a digit and has no blank at its end:
    no sign to take off, the scan starts after the first digit. *)
Lemma int_of_digit_string max c d s :
  Py.digit_value c = Some d →
  Py.int_blank c = false →
  Py.rstrip_with Py.int_blank s = s →
  Py.int max (String c s)
  = match Py.scan_digits Py.AfterDigit d 1%nat s with
    | Some (v, count) =>
        if (0 <? max)%nat && (max <? count)%nat then None else Some v
    | None => None
    end.
Proof.
  intros Hd Hb Hs. unfold Py.int. simpl Py.lstrip_with. rewrite Hb.
  rewrite rstrip_with_cons, Hs by done.
  assert (c ≠ "-"%char ∧ c ≠ "+"%char) as [Hm Hp].
  { split; intros ->; discriminate. }
  replace (match String c s with
           | String "-"%char b => (true, b)
           | String "+"%char b => (false, b)
           | _ => (false, String c s)
           end) with (false, String c s).
  2: { destruct c as [[] [] [] [] [] [] [] []]; try reflexivity; congruence. }
  rewrite (scan_digits_digit _ _ _ _ d) by done.
  replace (10 * 0 + d) with d by lia. reflexivity.
Qed.

(** The decimal text of a six-digit code reads back as the code, under any
    digit limit the interpreter accepts (none, or at least six). *)
Lemma int_pretty_six_digits (max : nat) (n : Z) :
  (max = 0 ∨ 6 ≤ max)%nat →
  100000 ≤ n ≤ 999999 → Py.int max (pretty n) = Some n.
Proof.
  intros Hmax Hn. destruct n as [|p|p]; [lia| |lia].
  unfold pretty, pretty_Z, pretty, pretty_positive, pretty, pretty_N.
  rewrite decide_False by done.
  assert (100000 ≤ N.pos p ≤ 999999)%N as Hp by lia.
  change (Z.pos p) with (Z.of_N (N.pos p)).
  generalize dependent (N.pos p). intros x Hx.
  do 6 (rewrite pretty_N_go_step by n_div_lia).
  replace (x / 10 / 10 / 10 / 10 / 10 / 10)%N with 0%N by n_div_lia.
  rewrite pretty_N_go_0.
  rewrite (int_of_digit_string _ _ _ _
             (digit_char_value _ (N.mod_lt _ 10 ltac:(done)))
             (digit_char_not_blank _)).
  2: { by rewrite !rstrip_with_cons by apply digit_char_not_blank. }
  do 5 (rewrite (scan_digits_digit _ _ _ _ _ _
                   (digit_char_value _ (N.mod_lt _ 10 ltac:(done))))).
  change (Py.scan_digits Py.AfterDigit ?a ?c "") with (Some (a, c)).
  cbv beta iota.
  assert ((0 <? max)%nat && (max <? 6)%nat = false) as ->.
  { apply andb_false_iff. destruct Hmax as [->|Hmax]; [by left|right].
    apply Nat.ltb_ge. lia. }
  f_equal. rewrite !N2Z.inj_mod, !N2Z.inj_div. simpl Z.of_N.
  Z.to_euclidean_division_equations. lia.
Qed.

(** ** Further properties of the verification handler *)

Section VerificationProperties.

Context {S : Type} `{!Auth S}.
Variable df : list NgoRow.
Implicit Types (w : World S) (data : NGOVerification.t).

Local Abbreviation name data := (NGOVerification.ngo_name data).
Local Abbreviation email data := (NGOVerification.ngo_email data).

(** Both checks pass: the outcome and every part of the world after. *)
Lemma verify_ngo_issues_world data w s' :
  joint_matches df (name data) (email data) ≠ [] →
  get_user_by_email (email data) (auth_state w) = (inl UserNotFoundError, s') →
  let code := 100000 + draw w mod 900000 in
  let record :=
    {| otp := code;
       expires_at := time (tick w) + timedelta_minutes OTP_EXPIRY_MINUTES |} in
  ∃ w1,
    verify_ngo df data w
    = (if relay_up w then inr otp_sent else inl NotificationFailure, w1)
    ∧ stored w1
      = (if disk_writable w
         then <[email data := record]> (unexpired (time w) (stored w))
         else stored w)
    ∧ disk_writable w1 = disk_writable w
    ∧ clock w1 = clock_after 2 w
    ∧ outbox w1
      = (if relay_up w then [otp_mail (email data) code] else []) ++ outbox w
    ∧ auth_state w1 = s'.
Proof.
  intros Hsome Hget code record. unfold verify_ngo. unfold bind at 1.
  fold (joint_matches df (name data) (email data)).
  rewrite bool_decide_eq_false_2 by done. simpl.
  unfold bind at 1, try_except, bind at 1, auth_get_user_by_email.
  rewrite Hget. simpl.
  unfold bind at 1. rewrite clean_expired_otps_run.
  unfold bind at 1, random_randint. simpl.
  unfold bind at 1. rewrite load_otp_store_run.
  unfold bind at 1. rewrite datetime_now_run.
  unfold bind at 1. rewrite save_otp_store_run.
  unfold bind at 1, send_email.
  destruct w as [file writable clk rnd sm ob st]. simpl in *.
  unfold persisted, relay_up, stored, clock_after. simpl.
  destruct writable; simpl; destruct (cells sm (pos sm)); simpl;
    eexists; (split; [reflexivity|]); simpl; repeat split; reflexivity.
Qed.

(** The four ways the handler can end. *)
Lemma verify_ngo_cases data w :
  (joint_matches df (name data) (email data) = []
   ∧ verify_ngo df data w = (inl NotFound, w))
  ∨ (joint_matches df (name data) (email data) ≠ []
     ∧ ((∃ user s',
           get_user_by_email (email data) (auth_state w) = (inr user, s')
           ∧ verify_ngo df data w
             = (inl AlreadyRegistered, set_auth_state s' w))
        ∨ (∃ e s',
             get_user_by_email (email data) (auth_state w) = (inl e, s')
             ∧ e ≠ UserNotFoundError
             ∧ verify_ngo df data w = (inl e, set_auth_state s' w))
        ∨ (∃ s',
             get_user_by_email (email data) (auth_state w)
             = (inl UserNotFoundError, s')))).
Proof.
  destruct (decide (joint_matches df (name data) (email data) = []))
    as [Hnone|Hsome].
  { left. split; [done|]. by apply verify_ngo_not_found. }
  right. split; [done|].
  destruct (get_user_by_email (email data) (auth_state w)) as [[e|user] s']
    eqn:Hget.
  - destruct (decide (e = UserNotFoundError)) as [->|Hne].
    + right. right. by exists s'.
    + right. left. exists e, s'. split; [done|]. split; [done|].
      by apply verify_ngo_provider_error.
  - left. exists user, s'. split; [done|].
    by apply (verify_ngo_already_registered df data w user).
Qed.

(** X8. Whatever its outcome, a verification request leaves in the store,
    with the same code and expiry, every record of another contact that
    was there before and live at the clean-up's reading of the clock:
    issuing a code for one contact costs no other contact a pending
    code. *)
Theorem verify_ngo_touches_only_the_contact data w k r :
  k ≠ email data →
  stored w !! k = Some r →
  time w < expires_at r →
  stored (snd (verify_ngo df data w)) !! k = Some r.
Proof.
  intros Hne Hk Hlive.
  destruct (verify_ngo_cases data w)
    as [[_ ->]|[Hsome [(user & s' & _ & ->)|[(e & s' & _ & _ & ->)
                                            |[s' Hget]]]]]; try done.
  destruct (verify_ngo_issues_world data w s' Hsome Hget)
    as (w1 & Hrun & Hst & _). rewrite Hrun. simpl. rewrite Hst.
  destruct (disk_writable w); [|done].
  rewrite lookup_insert_ne by done. by apply unexpired_lookup.
Qed.


End VerificationProperties.

(** ** The two handlers together *)

Section Lifecycle.

Context {S : Type} `{!Auth S}.
Variable df : list NgoRow.
Variable max_str_digits : nat.
Implicit Types (w : World S) (data : NGOVerification.t).

Local Abbreviation name data := (NGOVerification.ngo_name data).
Local Abbreviation email data := (NGOVerification.ngo_email data).

Lemma six_digit_codes_subseteq (m m' : OtpStore) :
  m' ⊆ m → six_digit_codes m → six_digit_codes m'.
Proof.
  intros Hsub Hm. apply map_Forall_lookup. intros k r Hk.
  apply (map_Forall_lookup_1 _ m k r Hm). by eapply lookup_weaken.
Qed.


(** X11. If every code in the store is a six-digit number, this is still
    so after a verification request and after a consumption request,
    whatever their outcomes. *)
Theorem handlers_keep_six_digit_codes data (data' : OTPVerification.t) w :
  six_digit_codes (stored w) →
  six_digit_codes (stored (snd (verify_ngo df data w)))
  ∧ six_digit_codes (stored (snd (verify_otp max_str_digits data' w))).
Proof.
  intros Hinv. split.
  - destruct (verify_ngo_cases df data w)
      as [[_ ->]|[Hsome [(user & s' & _ & ->)|[(e & s' & _ & _ & ->)
                                              |[s' Hget]]]]]; try done.
    destruct (verify_ngo_issues_world df data w s' Hsome Hget)
      as (w1 & Hrun & Hst & _). rewrite Hrun. simpl. rewrite Hst.
    destruct (disk_writable w); [|done].
    apply map_Forall_insert_2.
    + simpl. pose proof (Z.mod_pos_bound (draw w) 900000). lia.
    + apply (six_digit_codes_subseteq (stored w)); [apply unexpired_subseteq|done].
  - eapply six_digit_codes_subseteq; [|exact Hinv].
    apply verify_otp_stored_subseteq.
Qed.

End Lifecycle.

(** ** Further properties of signup and login *)

Section AccountProperties.

Context {S : Type} `{!Auth S}.
Variable df : list NgoRow.
Variable exn_str : exn → string.
Implicit Types (w : World S).

(** What [complete_signup] does, by the table and the provider's answer. *)
Lemma complete_signup_run (data : SignupModel.t) w :
  complete_signup df exn_str data w
  = match email_matches df (SignupModel.ngo_email data) with
    | [] =>
        (inl (HTTPException 500
                ("Registration failed: " +:+ exn_str SignupNotFound)), w)
    | row :: _ =>
        match create_user (SignupModel.ngo_email data)
                          (SignupModel.password data) (Ngo_Name row)
                          (auth_state w) with
        | (inr user, s') =>
            (inr [("message", "NGO registered successfully");
                  ("uid", UserRecord.uid user); ("ngo_name", Ngo_Name row)],
             set_auth_state s' w)
        | (inl EmailAlreadyExistsError, s') =>
            (inl (HTTPException 400 "Email already registered"),
             set_auth_state s' w)
        | (inl e, s') =>
            (inl (HTTPException 500 ("Registration failed: " +:+ exn_str e)),
             set_auth_state s' w)
        end
    end.
Proof.
  unfold complete_signup, try_except.
  fold (email_matches df (SignupModel.ngo_email data)).
  destruct (email_matches df (SignupModel.ngo_email data)) as [|row rows];
    [done|].
  unfold bind, auth_create_user.
  destruct (create_user _ _ _ _) as [[e|user] s']; [|done].
  by destruct e.
Qed.

(** X12. Every failure of [complete_signup] reaches the caller as an
    [HTTPException] of status 400 ("Email already registered") or of
    status 500 with the text of the exception it replaces: no exception
    of the identity provider leaves the handler as it was raised. *)
Theorem complete_signup_failures (data : SignupModel.t) w e :
  fst (complete_signup df exn_str data w) = inl e →
  e = HTTPException 400 "Email already registered"
  ∨ ∃ cause, e = HTTPException 500 ("Registration failed: " +:+ exn_str cause).
Proof.
  rewrite complete_signup_run.
  destruct (email_matches df (SignupModel.ngo_email data)) as [|row rows].
  { simpl. intros [= <-]. right. by eexists. }
  destruct (create_user _ _ _ _) as [[cause|user] s']; [|done].
  destruct cause; simpl; intros [= <-]; (by left) || (right; by eexists).
Qed.


(** X14. [complete_signup] answers with success exactly when the email
    matches a row of the table and the provider creates the account; the
    account is created under the email as submitted, with the name of
    the first matching row as display name, and the answer carries the
    new account's uid and that name. *)
Theorem complete_signup_success_iff (data : SignupModel.t) w resp :
  fst (complete_signup df exn_str data w) = inr resp
  ↔ ∃ row rows user s',
      email_matches df (SignupModel.ngo_email data) = row :: rows
      ∧ create_user (SignupModel.ngo_email data) (SignupModel.password data)
                    (Ngo_Name row) (auth_state w) = (inr user, s')
      ∧ resp = [("message", "NGO registered successfully");
                ("uid", UserRecord.uid user); ("ngo_name", Ngo_Name row)].
Proof.
  rewrite complete_signup_run. split.
  - destruct (email_matches df (SignupModel.ngo_email data)) as [|row rows];
      [done|].
    destruct (create_user _ _ _ _) as [[cause|user] s'] eqn:Hcreate.
    + by destruct cause.
    + simpl. intros [= <-]. by exists row, rows, user, s'.
  - intros (row & rows & user & s' & -> & -> & ->). done.
Qed.

(** X15. [login] answers with success exactly when the provider returns
    an account for the email, and then with that account's profile; every
    failure reaches the caller as an [HTTPException]; and the handler
    leaves the store file, the clock and the outbox as they were. *)
Theorem login_success_iff (data : LoginModel.t) w :
  (∀ resp,
     fst (login exn_str data w) = inr resp
     ↔ ∃ user s',
         get_user_by_email (LoginModel.email data) (auth_state w)
         = (inr user, s')
         ∧ resp = login_successful user)
  ∧ (∀ e, fst (login exn_str data w) = inl e → is_HTTPException e = true)
  ∧ otp_file (snd (login exn_str data w)) = otp_file w
  ∧ clock (snd (login exn_str data w)) = clock w
  ∧ outbox (snd (login exn_str data w)) = outbox w.
Proof.
  rewrite login_run.
  destruct (get_user_by_email _ _) as [[cause|user] s'] eqn:Hget.
  - split; [|split; [|by destruct cause]].
    + intros resp. split; [by destruct cause|].
      by intros (user & s'' & [=] & _).
    + intros e. destruct cause; simpl; by intros [= <-].
  - split; [|done]. intros resp. simpl. split.
    + intros [= <-]. by exists user, s'.
    + by intros (user' & s'' & [= <- _] & ->).
Qed.

End AccountProperties.

(** ** The debug endpoint *)

Section DebugProperties.

Context {S : Type}.
Variable environment : option string.
Variable strftime : Z → exn + string.
Implicit Types (w : World S).

Lemma readable_items_all (items : list (string * OtpRecord)) :
  Forall (λ item, ∃ text, strftime (expires_at item.2) = inr text) items →
  readable_items strftime items
  = inr (prod_map id (readable_record strftime) <$> items).
Proof.
  induction 1 as [|[k r] items [text Hr] _ IH]; [done|].
  simpl in *. rewrite Hr, IH. unfold readable_record. by rewrite Hr.
Qed.

Lemma readable_items_raises (items : list (string * OtpRecord)) :
  Exists (λ item, ∃ e, strftime (expires_at item.2) = inl e) items →
  ∃ e t, readable_items strftime items = inl e ∧ strftime t = inl e.
Proof.
  induction items as [|[k r] items IH]; intros Hex.
  { by apply Exists_nil in Hex. }
  simpl. destruct (strftime (expires_at r)) as [e|text] eqn:Hr; [by eauto|].
  apply Exists_cons in Hex as [[e He]|Hex]; [simpl in He; congruence|].
  destruct (IH Hex) as (e & t & -> & Ht). eauto.
Qed.

(** X16. Unless the environment variable is set to exactly "development",
    the listing is refused with status 403 before the store is read. In
    development mode the handler runs no clean-up: when every expiry can
    be converted to text, it lists every record of the file, expired ones
    included, each with its code, and counts them; when some expiry
    cannot, the exception of a failed conversion leaves the handler
    uncaught. In no case does the handler change the world. *)
Theorem check_otp_status_listing w :
  (environment ≠ Some "development" →
   check_otp_status environment strftime w
   = (inl (HTTPException 403 "Not allowed in production"), w))
  ∧ (environment = Some "development" →
     (∀ k r, stored w !! k = Some r →
             ∃ text, strftime (expires_at r) = inr text) →
     ∃ listing,
       check_otp_status environment strftime w = (inr listing, w)
       ∧ otp_count listing = size (stored w)
       ∧ otps listing = readable_record strftime <$> stored w)
  ∧ (environment = Some "development" →
     (∃ k r e, stored w !! k = Some r ∧ strftime (expires_at r) = inl e) →
     ∃ e t,
       check_otp_status environment strftime w = (inl e, w)
       ∧ strftime t = inl e).
Proof.
  unfold check_otp_status, bind. split; [|split].
  - intros Hprod. by rewrite bool_decide_eq_false_2.
  - intros Hdev Hall. rewrite bool_decide_eq_true_2 by done. simpl.
    rewrite load_otp_store_run, readable_items_all.
    2: { apply Forall_forall. intros [k r] Hin.
         apply elem_of_map_to_list in Hin. by apply (Hall k). }
    eexists. split; [reflexivity|]. split; [done|]. simpl.
    by rewrite list_to_map_fmap, list_to_map_to_list.
  - intros Hdev (k & r & e & Hk & He).
    rewrite bool_decide_eq_true_2 by done. simpl. rewrite load_otp_store_run.
    destruct (readable_items_raises (map_to_list (stored w)))
      as (e' & t & -> & Ht); [|by eauto].
    apply Exists_exists. exists (k, r).
    split; [by apply elem_of_map_to_list|by exists e].
Qed.

End DebugProperties.

(** ** The form in which names and emails are compared *)

Lemma lower_char_lower_char c :
  Py.lower_char (Py.lower_char c) = Py.lower_char c.
Proof. by destruct c as [[] [] [] [] [] [] [] []]. Qed.

Lemma isspace_lower_char c : Py.isspace (Py.lower_char c) = Py.isspace c.
Proof. by destruct c as [[] [] [] [] [] [] [] []]. Qed.

Lemma lower_lower s : Py.lower (Py.lower s) = Py.lower s.
Proof.
  induction s as [|c s IH]; [done|]. simpl.
  by rewrite lower_char_lower_char, IH.
Qed.

Lemma lstrip_lower s :
  Py.lstrip_with Py.isspace (Py.lower s)
  = Py.lower (Py.lstrip_with Py.isspace s).
Proof.
  induction s as [|c s IH]; [done|]. simpl.
  rewrite isspace_lower_char. by destruct (Py.isspace c).
Qed.

Lemma rstrip_lower s :
  Py.rstrip_with Py.isspace (Py.lower s)
  = Py.lower (Py.rstrip_with Py.isspace s).
Proof.
  induction s as [|c s IH]; [done|]. simpl.
  rewrite IH, isspace_lower_char.
  destruct (Py.rstrip_with Py.isspace s); simpl; [|done].
  by destruct (Py.isspace c).
Qed.

Lemma strip_lower s : Py.strip (Py.lower s) = Py.lower (Py.strip s).
Proof. unfold Py.strip. by rewrite lstrip_lower, rstrip_lower. Qed.

Lemma lstrip_head sp s :
  Py.lstrip_with sp s = EmptyString
  ∨ ∃ c s', Py.lstrip_with sp s = String c s' ∧ sp c = false.
Proof.
  induction s as [|c s IH]; [by left|]. simpl.
  destruct (sp c) eqn:Hc; [done|]. right. by exists c, s.
Qed.

Lemma rstrip_rstrip sp s :
  Py.rstrip_with sp (Py.rstrip_with sp s) = Py.rstrip_with sp s.
Proof.
  induction s as [|c s IH]; [done|]. simpl.
  destruct (Py.rstrip_with sp s) as [|c' r] eqn:Hr.
  - destruct (sp c) eqn:Hc; [done|]. simpl. by rewrite Hc.
  - change (Py.rstrip_with sp (String c (String c' r)))
      with (match Py.rstrip_with sp (String c' r) with
            | EmptyString => if sp c then EmptyString else String c EmptyString
            | r' => String c r'
            end).
    by rewrite IH.
Qed.

Lemma strip_strip s : Py.strip (Py.strip s) = Py.strip s.
Proof.
  unfold Py.strip.
  destruct (lstrip_head Py.isspace s) as [->|(c & s' & -> & Hc)]; [done|].
  rewrite rstrip_with_cons by done. simpl. rewrite Hc.
  rewrite <- (rstrip_with_cons _ _ _ Hc). apply rstrip_rstrip.
Qed.

Lemma normal_normal s : normal (normal s) = normal s.
Proof.
  unfold normal. by rewrite strip_lower, lower_lower, strip_strip.
Qed.

(** X17. The dataset checks of [verify_ngo] and [complete_signup] cannot
    tell a request from the same request with its name and email trimmed
    and lower-cased: both select the same rows of the table. *)
Theorem dataset_checks_see_normal_forms (df : list NgoRow)
  (name email : string) :
  joint_matches df (normal name) (normal email) = joint_matches df name email
  ∧ email_matches df (normal email) = email_matches df email.
Proof.
  unfold joint_matches, email_matches.
  fold (normal name) (normal email) (normal (normal name))
    (normal (normal email)).
  by rewrite !normal_normal.
Qed.

(** ** The further properties on concrete requests *)

Example save_then_load_example :
  fst (load_otp_store (snd (save_otp_store ∅ pending_world))) = inr ∅
  ∧ fst (load_otp_store (snd (save_otp_store ∅ read_only_world)))
    = inr two_records
  ∧ fst (load_otp_store (sample_world Unreadable true 0 0 0 true ∅))
    = inr ∅.
Proof. repeat split; vm_compute; reflexivity. Qed.


Lemma verify_otp_late_gets_no_pending_witness :
  ∃ w1,
    verify_otp 4300 (submit "123456") late_world = (inl NoPendingOtp, w1)
    ∧ (disk_writable late_world = true → stored w1 !! ops = None).
Proof.
  apply (verify_otp_late_gets_no_pending 4300 (submit "123456") late_world
           ops_record).
  - vm_compute. reflexivity.
  - vm_compute. discriminate.
Defined.

Example verify_otp_expired_iff_example :
  fst (verify_otp 4300 (submit "123456") racing_world) = inl Expired
  ∧ fst (verify_otp 4300 (submit "123456") late_world) = inl NoPendingOtp.
Proof. split; vm_compute; reflexivity. Qed.

Lemma verify_otp_reads_code_as_integer_witness :
  verify_otp 4300 (submit "123456") pending_world
  = verify_otp 4300 (submit " +0123_456 ") pending_world.
Proof.
  apply (verify_otp_reads_code_as_integer 4300 ops "123456" " +0123_456 "
           pending_world).
  reflexivity.
Defined.

Lemma verify_ngo_touches_only_the_contact_witness :
  stored (snd (verify_ngo sample_df helping_hands early_world))
    !! "old@example.org"
  = Some {| otp := 654321; expires_at := 50 |}.
Proof.
  apply (verify_ngo_touches_only_the_contact sample_df helping_hands
           early_world).
  all: vm_compute; first [reflexivity | discriminate].
Defined.



Lemma handlers_keep_six_digit_codes_witness :
  six_digit_codes
    (stored (snd (verify_ngo sample_df helping_hands pending_world)))
  ∧ six_digit_codes
      (stored (snd (verify_otp 4300 (submit "123456") pending_world))).
Proof.
  apply (handlers_keep_six_digit_codes sample_df 4300 helping_hands
           (submit "123456") pending_world).
  change (stored pending_world) with two_records.
  apply map_Forall_insert_2; [simpl; lia|].
  apply map_Forall_singleton. simpl. lia.
Defined.

Lemma complete_signup_failures_witness :
  HTTPException 400 "Email already registered"
  = HTTPException 400 "Email already registered"
  ∨ ∃ cause,
      HTTPException 400 "Email already registered"
      = HTTPException 500 ("Registration failed: " +:+ sample_exn_str cause).
Proof.
  apply (complete_signup_failures sample_df sample_exn_str
           {| SignupModel.ngo_email := ops; SignupModel.password := "secret" |}
           registered_world).
  vm_compute. reflexivity.
Defined.


Example complete_signup_example :
  fst (complete_signup sample_df sample_exn_str
         {| SignupModel.ngo_email := " OPS@helpinghands.org";
            SignupModel.password := "secret" |} pending_world)
  = inr [("message", "NGO registered successfully");
         ("uid", "uid- OPS@helpinghands.org");
         ("ngo_name", "Helping Hands")].
Proof. vm_compute. reflexivity. Qed.

Example check_otp_status_example :
  fst (check_otp_status (Some "development") sample_strftime pending_world)
  = inr {| otp_count := 2;
           otps := {[ ops := {| ReadableOtp.otp := 123456;
                                ReadableOtp.expires_at := "t=1000" |};
                      "old@example.org"
                        := {| ReadableOtp.otp := 654321;
                              ReadableOtp.expires_at := "t=50" |} ]} |}
  ∧ fst (check_otp_status (S := gmap string UserRecord.t) None
           sample_strftime pending_world)
    = inl (HTTPException 403 "Not allowed in production")
  ∧ fst (check_otp_status (Some "Development") sample_strftime pending_world)
    = inl (HTTPException 403 "Not allowed in production").
Proof. repeat split; vm_compute; reflexivity. Qed.

Example dataset_checks_example :
  joint_matches sample_df "  HELPING hands " "Ops@HelpingHands.ORG "
  = sample_df
  ∧ joint_matches sample_df "Helping Hand" ops = [].
Proof. split; reflexivity. Qed.
